(** * The [useUserProfile] hook as an event-driven state machine

    Shallow embedding of [src/components/UserProfile/useUserProfile.ts]
    (with the types of [types.ts]).

    The hook keeps one React state cell of type [UserProfileState] and
    exposes four callbacks.  Two of them, [fetchUser] and [updateUser],
    are [async]: each runs a synchronous prefix (a [setState] and the
    start of a network call), is suspended at its [await], and is resumed
    when the network call settles.  We model

    - every [setState (prev => ...)] as its updater function on
      [UserProfileState], applied to the latest state (React applies
      queued updaters in the order they were queued);
    - the code after an [await] as a computation in a small state and
      exception monad over the [World] (state cell, props, suspended
      calls, log of remote calls, log of [onUpdate] notifications);
    - the scheduler as a list of [Event]s: calls of the hook's callbacks,
      re-renders with new props, and settlements of suspended calls in
      any order. *)

From stdpp Require Import base option list strings gmap fin_maps.

Open Scope string_scope.
Open Scope list_scope.
Open Scope nat_scope.

(** ** types.ts *)

Module Role.
Inductive UserRole := admin | user | guest.
End Role.

Record User := {
  id : string;
  email : string;
  firstName : string;
  lastName : string;
  avatar : option string;
  bio : option string;
  role : Role.UserRole;
  createdAt : string;
  updatedAt : string;
}.

Record UserProfileState := {
  user : option User;
  isLoading : bool;
  error : option string;
  isEditing : bool;
}.

Record UpdateUserPayload := {
  payload_firstName : option string;
  payload_lastName : option string;
  payload_bio : option string;
  payload_avatar : option string;
}.

(** ** The network boundary

    What [await fetch(...)] and [await response.json()] can give back.
    A rejected promise carries a thrown value, which is an [Error] with
    a message or some other value (the two cases [err instanceof Error]
    tells apart). *)

Inductive Thrown :=
  | ThrownError (message : string)
  | ThrownValue.

Inductive JsonResult :=
  | JsonUser (u : User)
  | JsonThrows (err : Thrown).

Record Response := {
  ok : bool;
  statusText : string;
  json : JsonResult;
}.

Inductive FetchResult :=
  | Fulfilled (response : Response)
  | Rejected (err : Thrown).

Inductive Request :=
  | GET (url : string)
  | PATCH (url : string) (body : UpdateUserPayload).

(** ** Props, suspended calls and the world *)

Record UseUserProfileOptions := {
  userId : string;
  onUpdate : option (User → option Thrown);
}.

(** An [async] callback suspended at its [await fetch(...)].  The
    continuation of [updateUser] has captured the [onUpdate] of the
    render that created the callback. *)
Inductive Suspended :=
  | FetchUserK
  | UpdateUserK (cb : option (User → option Thrown)).

Record World := {
  state : UserProfileState;
  props : UseUserProfileOptions;
  pending : gmap nat Suspended;
  next_rid : nat;
  calls : list Request;
  notified : list User;
}.

(** ** A state and exception monad for the bodies of the callbacks *)

Definition Async (A : Type) : Type := World → World * (Thrown + A).

Global Instance async_ret : MRet Async := λ A x w, (w, inr x).

Global Instance async_bind : MBind Async := λ A B f m w,
  match m w with
  | (w', inr x) => f x w'
  | (w', inl err) => (w', inl err)
  end.

Definition throw {A} (err : Thrown) : Async A := λ w, (w, inl err).

Definition try_catch (body : Async ()) (handler : Thrown → Async ()) : Async () :=
  λ w, match body w with
       | (w', inr x) => (w', inr x)
       | (w', inl err) => handler err w'
       end.

Definition setState (f : UserProfileState → UserProfileState) : Async () :=
  λ w, ({| state := f (state w); props := props w; pending := pending w;
           next_rid := next_rid w; calls := calls w; notified := notified w |},
        inr ()).

(** [await p] for a promise that has settled. *)
Definition await_fetch (res : FetchResult) : Async Response :=
  match res with
  | Fulfilled response => mret response
  | Rejected err => throw err
  end.

Definition await_json (response : Response) : Async User :=
  match json response with
  | JsonUser u => mret u
  | JsonThrows err => throw err
  end.

(** [onUpdate?.(updatedUser)]: nothing when the prop is missing; else
    the call is recorded, and the callback may throw. *)
Definition call_onUpdate (cb : option (User → option Thrown)) (u : User) : Async () :=
  match cb with
  | None => mret ()
  | Some f => λ w,
      let w' := {| state := state w; props := props w; pending := pending w;
                   next_rid := next_rid w; calls := calls w;
                   notified := notified w ++ [u] |} in
      match f u with
      | None => (w', inr ())
      | Some err => (w', inl err)
      end
  end.

(** Start a network call and suspend the caller on it. *)
Definition suspend_on (req : Request) (k : Suspended) (w : World) : World :=
  {| state := state w; props := props w;
     pending := <[next_rid w := k]> (pending w);
     next_rid := S (next_rid w);
     calls := calls w ++ [req];
     notified := notified w |}.

Definition exec (m : Async ()) (w : World) : World := fst (m w).

(** ** The [setState] updaters of the hook *)

(** [(prev) => ({ ...prev, isLoading: true, error: null })] *)
Definition begin_operation (prev : UserProfileState) : UserProfileState :=
  {| user := user prev; isLoading := true; error := None;
     isEditing := isEditing prev |}.

(** [(prev) => ({ ...prev, user, isLoading: false })] *)
Definition fetch_succeeded (u : User) (prev : UserProfileState) : UserProfileState :=
  {| user := Some u; isLoading := false; error := error prev;
     isEditing := isEditing prev |}.

(** [(prev) => ({ ...prev, user: updatedUser, isLoading: false, isEditing: false })] *)
Definition update_succeeded (updatedUser : User) (prev : UserProfileState)
  : UserProfileState :=
  {| user := Some updatedUser; isLoading := false; error := error prev;
     isEditing := false |}.

(** [(prev) => ({ ...prev, error: message, isLoading: false })] *)
Definition operation_failed (message : string) (prev : UserProfileState)
  : UserProfileState :=
  {| user := user prev; isLoading := false; error := Some message;
     isEditing := isEditing prev |}.

(** [(prev) => ({ ...prev, isEditing })] *)
Definition set_isEditing (b : bool) (prev : UserProfileState) : UserProfileState :=
  {| user := user prev; isLoading := isLoading prev; error := error prev;
     isEditing := b |}.

(** [(prev) => ({ ...prev, error: null })] *)
Definition clear_error (prev : UserProfileState) : UserProfileState :=
  {| user := user prev; isLoading := isLoading prev; error := None;
     isEditing := isEditing prev |}.

(** [err instanceof Error ? err.message : fallback] *)
Definition message_of (fallback : string) (err : Thrown) : string :=
  match err with
  | ThrownError message => message
  | ThrownValue => fallback
  end.

Definition api_url (uid : string) : string := "/api/users/" +:+ uid.

(** ** fetchUser *)

(** Up to the [await]: the first [setState] and the GET. *)
Definition fetchUser_call (w : World) : World :=
  suspend_on (GET (api_url (userId (props w)))) FetchUserK
             (exec (setState begin_operation) w).

(** From the [await] on: the rest of the [try] block and the [catch]. *)
Definition fetchUser_resume (res : FetchResult) : Async () :=
  try_catch
    (response ← await_fetch res;
     _ ← (if negb (ok response)
          then throw (ThrownError ("Failed to fetch user: " +:+ statusText response))
          else mret ());
     u ← await_json response;
     setState (fetch_succeeded u))
    (λ err,
       let message := message_of "Failed to fetch user" err in
       setState (operation_failed message)).

(** ** updateUser

    The guard reads [state.user] of the render that created the callback.
    Every event is followed by a render, and callers use the callback of
    the latest render, so this is the user of the current state. *)

Definition updateUser_call (payload : UpdateUserPayload) (w : World) : World :=
  match user (state w) with
  | None => w
  | Some _ =>
      suspend_on (PATCH (api_url (userId (props w))) payload)
                 (UpdateUserK (onUpdate (props w)))
                 (exec (setState begin_operation) w)
  end.

Definition updateUser_resume (cb : option (User → option Thrown))
    (res : FetchResult) : Async () :=
  try_catch
    (response ← await_fetch res;
     _ ← (if negb (ok response)
          then throw (ThrownError ("Failed to update user: " +:+ statusText response))
          else mret ());
     updatedUser ← await_json response;
     _ ← setState (update_succeeded updatedUser);
     call_onUpdate cb updatedUser)
    (λ err,
       let message := message_of "Failed to update user" err in
       setState (operation_failed message)).

(** ** setEditing, clearError *)

Definition setEditing (b : bool) (w : World) : World :=
  exec (setState (set_isEditing b)) w.

Definition clearError (w : World) : World :=
  exec (setState clear_error) w.

(** ** Mounting, re-rendering and the scheduler *)

Definition initial_state : UserProfileState :=
  {| user := None; isLoading := true; error := None; isEditing := false |}.

(** First render with props [p]: [useState] creates the state cell and the
    effect runs [fetchUser] once. *)
Definition mount (p : UseUserProfileOptions) : World :=
  fetchUser_call
    {| state := initial_state; props := p; pending := ∅; next_rid := 0;
       calls := []; notified := [] |}.

Definition with_props (p : UseUserProfileOptions) (w : World) : World :=
  {| state := state w; props := p; pending := pending w;
     next_rid := next_rid w; calls := calls w; notified := notified w |}.

(** A render with new props.  [fetchUser] is memoised on [[userId]] and
    the effect depends on [[fetchUser]]: it runs again exactly when
    [userId] has changed. *)
Definition rerender (p : UseUserProfileOptions) (w : World) : World :=
  if decide (userId p = userId (props w))
  then with_props p w
  else fetchUser_call (with_props p w).

Definition drop_pending (rid : nat) (w : World) : World :=
  {| state := state w; props := props w; pending := delete rid (pending w);
     next_rid := next_rid w; calls := calls w; notified := notified w |}.

Definition resume (k : Suspended) (res : FetchResult) : Async () :=
  match k with
  | FetchUserK => fetchUser_resume res
  | UpdateUserK cb => updateUser_resume cb res
  end.

(** The network call numbered [rid] settles with [res]; nothing happens
    when no call has that number. *)
Definition settle (rid : nat) (res : FetchResult) (w : World) : World :=
  match pending w !! rid with
  | None => w
  | Some k => exec (resume k res) (drop_pending rid w)
  end.

Inductive Event :=
  | Rerender (p : UseUserProfileOptions)
  | CallFetchUser
  | CallUpdateUser (payload : UpdateUserPayload)
  | CallSetEditing (b : bool)
  | CallClearError
  | Settle (rid : nat) (res : FetchResult).

Definition step (w : World) (e : Event) : World :=
  match e with
  | Rerender p => rerender p w
  | CallFetchUser => fetchUser_call w
  | CallUpdateUser payload => updateUser_call payload w
  | CallSetEditing b => setEditing b w
  | CallClearError => clearError w
  | Settle rid res => settle rid res w
  end.

Definition run (w : World) (evs : list Event) : World := foldl step w evs.

Definition reachable (w : World) : Prop :=
  ∃ p evs, w = run (mount p) evs.

(** ** How a settled network call is read by the callbacks

    Both callbacks read a settled call the same way: a response that is
    not [ok] is a failure described by its [statusText]; a rejected
    [fetch] or a [json()] that throws is a failure carrying the thrown
    value; an [ok] response whose body parses is a success. *)

Inductive Failure :=
  | NotOk (status : string)
  | Threw (err : Thrown).

Definition outcome_of (res : FetchResult) : Failure + User :=
  match res with
  | Rejected err => inl (Threw err)
  | Fulfilled response =>
      if ok response
      then match json response with
           | JsonUser u => inr u
           | JsonThrows err => inl (Threw err)
           end
      else inl (NotOk (statusText response))
  end.

Definition operation_word (k : Suspended) : string :=
  match k with
  | FetchUserK => "fetch"
  | UpdateUserK _ => "update"
  end.

(** The error string the hook stores for a failure of [operation]. *)
Definition error_message (operation : string) (f : Failure) : string :=
  match f with
  | NotOk status => "Failed to " +:+ operation +:+ " user: " +:+ status
  | Threw err => message_of ("Failed to " +:+ operation +:+ " user") err
  end.

(** The error string as the specification words it:
    ["Failed to {operation}: {statusText}"] for a status description,
    else the message verbatim, else ["Failed to {operation} user"]. *)
Definition specified_error_message (operation : string) (f : Failure) : string :=
  match f with
  | NotOk status => "Failed to " +:+ operation +:+ ": " +:+ status
  | Threw (ThrownError message) => message
  | Threw ThrownValue => "Failed to " +:+ operation +:+ " user"
  end.

(** The state after the continuation of [fetchUser] has run on [res]. *)
Definition apply_fetch_result (res : FetchResult) (prev : UserProfileState)
  : UserProfileState :=
  match outcome_of res with
  | inr u => fetch_succeeded u prev
  | inl f => operation_failed (error_message "fetch" f) prev
  end.

(** An update is in flight: [updateUser] is suspended on some call. *)
Definition update_in_flight (w : World) : Prop :=
  ∃ rid cb, pending w !! rid = Some (UpdateUserK cb).

(** ** Invariants of the reachable worlds *)

(** The invariant of the state cell: a stored error means not loading. *)
Definition settled_error (s : UserProfileState) : Prop :=
  is_Some (error s) → isLoading s = false.

(** Call numbers from [next_rid] on are unused. *)
Definition fresh_rids (w : World) : Prop :=
  ∀ rid, next_rid w ≤ rid → pending w !! rid = None.

(** While an update is in flight a user is held. *)
Definition updates_have_user (w : World) : Prop :=
  update_in_flight w → is_Some (user (state w)).

(** ** Sample data (from the test suite of the hook) *)

Definition mockUser : User :=
  {| id := "user-123"; email := "john.doe@example.com";
     firstName := "John"; lastName := "Doe"; avatar := None; bio := None;
     role := Role.user; createdAt := "2025-01-01T00:00:00Z";
     updatedAt := "2025-12-16T00:00:00Z" |}.

Definition user2 : User :=
  {| id := "user-456"; email := "john.doe@example.com";
     firstName := "Jane"; lastName := "Doe"; avatar := None; bio := None;
     role := Role.user; createdAt := "2025-01-01T00:00:00Z";
     updatedAt := "2025-12-16T00:00:00Z" |}.

Definition ok_response (u : User) : FetchResult :=
  Fulfilled {| ok := true; statusText := "OK"; json := JsonUser u |}.

Definition failed_response (status : string) : FetchResult :=
  Fulfilled {| ok := false; statusText := status; json := JsonThrows ThrownValue |}.

Definition props_of (uid : string) : UseUserProfileOptions :=
  {| userId := uid; onUpdate := None |}.

Definition jane_patch : UpdateUserPayload :=
  {| payload_firstName := Some "Jane"; payload_lastName := None;
     payload_bio := None; payload_avatar := None |}.

Definition bio_patch : UpdateUserPayload :=
  {| payload_firstName := None; payload_lastName := None;
     payload_bio := Some "Updated bio"; payload_avatar := None |}.

(** * The [UserProfile] component

    Shallow embedding of [src/components/UserProfile/UserProfile.tsx]:
    the component owns the hook (called with its [userId] and [onUpdate]
    props) and one more state cell, [formData]; its handlers call the
    hook's callbacks, and its body maps the current state to what is
    displayed.  Styling (class names) is left out of the view. *)

(** JavaScript truthiness of an optional string: [undefined] and the
    empty string are falsy. *)
Definition truthy (o : option string) : option string :=
  match o with
  | Some (String c s) => Some (String c s)
  | _ => None
  end.

(** [o || ''] *)
Definition or_empty (o : option string) : string := default "" o.

(** [!o] for an optional object. *)
Definition is_null {A} (o : option A) : bool :=
  match o with
  | None => true
  | Some _ => false
  end.

(** [s[0]] as rendered in JSX: the first character, nothing for [""]. *)
Definition first_char (s : string) : string :=
  match s with
  | String c _ => String c ""
  | EmptyString => ""
  end.

(** The [name] attributes of the controls of the form. *)
Inductive Field := FirstNameField | LastNameField | BioField.

Definition empty_payload : UpdateUserPayload :=
  {| payload_firstName := None; payload_lastName := None;
     payload_bio := None; payload_avatar := None |}.

(** [(prev) => ({ ...prev, [name]: value })] *)
Definition set_field (name : Field) (value : string) (prev : UpdateUserPayload)
  : UpdateUserPayload :=
  match name with
  | FirstNameField =>
      {| payload_firstName := Some value; payload_lastName := payload_lastName prev;
         payload_bio := payload_bio prev; payload_avatar := payload_avatar prev |}
  | LastNameField =>
      {| payload_firstName := payload_firstName prev; payload_lastName := Some value;
         payload_bio := payload_bio prev; payload_avatar := payload_avatar prev |}
  | BioField =>
      {| payload_firstName := payload_firstName prev;
         payload_lastName := payload_lastName prev;
         payload_bio := Some value; payload_avatar := payload_avatar prev |}
  end.

(** [{ firstName: user.firstName, lastName: user.lastName, bio: user.bio || '' }] *)
Definition form_of_user (u : User) : UpdateUserPayload :=
  {| payload_firstName := Some (firstName u); payload_lastName := Some (lastName u);
     payload_bio := Some (or_empty (bio u)); payload_avatar := None |}.

(** A mounted component: the world of its hook, its [formData] cell, its
    [editable] prop and the calls made to [onEditToggle] (recorded as if
    the prop were given; the callback is taken to return normally). *)
Record Component := {
  hook : World;
  formData : UpdateUserPayload;
  editable : bool;
  editToggles : list bool;
}.

Definition mountUserProfile (p : UseUserProfileOptions) (ed : bool) : Component :=
  {| hook := mount p; formData := empty_payload; editable := ed;
     editToggles := [] |}.

(** ** The handlers *)

Definition handleEditClick (c : Component) : Component :=
  let s := state (hook c) in
  let newEditState := negb (isEditing s) in
  {| hook := setEditing newEditState (hook c);
     formData := match user s with
                 | Some u => if newEditState then form_of_user u else formData c
                 | None => formData c
                 end;
     editable := editable c;
     editToggles := editToggles c ++ [newEditState] |}.

Definition handleSubmit (c : Component) : Component :=
  {| hook := updateUser_call (formData c) (hook c); formData := formData c;
     editable := editable c; editToggles := editToggles c |}.

Definition handleInputChange (name : Field) (value : string) (c : Component)
  : Component :=
  {| hook := hook c; formData := set_field name value (formData c);
     editable := editable c; editToggles := editToggles c |}.

(** The Dismiss button: [onClick={clearError}]. *)
Definition dismiss (c : Component) : Component :=
  {| hook := clearError (hook c); formData := formData c;
     editable := editable c; editToggles := editToggles c |}.

(** ** What is displayed *)

Inductive AvatarView :=
  | AvatarImage (src alt : string)
  | AvatarPlaceholder (initials : string).

Record FormView := {
  firstName_value : string;
  lastName_value : string;
  bio_value : string;
  save_disabled : bool;
  save_label : string;
}.

Record InfoView := {
  info_name : string;
  info_email : string;
  info_role : Role.UserRole;
  info_bio : option string;
}.

Inductive BodyView :=
  | FormBody (form : FormView)
  | InfoBody (info : InfoView).

(** The four containers of the component, by their [data-testid]:
    [user-profile-loading], [user-profile-error] (the message and the
    Dismiss button), [user-profile-empty] and [user-profile] (avatar, the
    edit button with its label when [editable], and the form or the
    information). *)
Inductive View :=
  | LoadingView
  | ErrorView (message : string)
  | EmptyView
  | ProfileView (avatar : AvatarView) (editButton : option string) (body : BodyView).

Definition UserProfile (c : Component) : View :=
  let s := state (hook c) in
  if isLoading s && is_null (user s) then LoadingView
  else match truthy (error s) with
  | Some message => ErrorView message
  | None =>
      match user s with
      | None => EmptyView
      | Some u =>
          let fullName := firstName u +:+ " " +:+ lastName u in
          ProfileView
            match truthy (avatar u) with
            | Some src => AvatarImage src fullName
            | None => AvatarPlaceholder (first_char (firstName u) +:+ first_char (lastName u))
            end
            (if editable c
             then Some (if isEditing s then "Cancel" else "Edit")
             else None)
            (if isEditing s
             then FormBody
                    {| firstName_value := or_empty (payload_firstName (formData c));
                       lastName_value := or_empty (payload_lastName (formData c));
                       bio_value := or_empty (payload_bio (formData c));
                       save_disabled := isLoading s;
                       save_label := if isLoading s then "Saving..." else "Save Changes" |}
             else InfoBody
                    {| info_name := fullName; info_email := email u;
                       info_role := role u; info_bio := truthy (bio u) |})
      end
  end.

(** ** Events of a mounted component

    The user's actions on the controls, a render with new props from the
    parent, and the settlement of a network call. *)
Inductive UIEvent :=
  | EditClick
  | InputChange (name : Field) (value : string)
  | FormSubmit
  | DismissClick
  | PropsChange (p : UseUserProfileOptions) (ed : bool)
  | NetworkSettle (rid : nat) (res : FetchResult).

Definition ui_step (c : Component) (e : UIEvent) : Component :=
  match e with
  | EditClick => handleEditClick c
  | InputChange name value => handleInputChange name value c
  | FormSubmit => handleSubmit c
  | DismissClick => dismiss c
  | PropsChange p ed =>
      {| hook := rerender p (hook c); formData := formData c; editable := ed;
         editToggles := editToggles c |}
  | NetworkSettle rid res =>
      {| hook := settle rid res (hook c); formData := formData c;
         editable := editable c; editToggles := editToggles c |}
  end.

Definition ui_run (c : Component) (evs : list UIEvent) : Component :=
  foldl ui_step c evs.

(** The hook event behind a component event, if any. *)
Definition hook_event (c : Component) (e : UIEvent) : option Event :=
  match e with
  | EditClick => Some (CallSetEditing (negb (isEditing (state (hook c)))))
  | InputChange _ _ => None
  | FormSubmit => Some (CallUpdateUser (formData c))
  | DismissClick => Some CallClearError
  | PropsChange p _ => Some (Rerender p)
  | NetworkSettle rid res => Some (Settle rid res)
  end.

(** No PATCH among the calls carries an avatar. *)
Definition no_avatar_sent (calls : list Request) : Prop :=
  Forall (λ req, match req with
                 | GET _ => True
                 | PATCH _ body => payload_avatar body = None
                 end) calls.

(** Some network call is in flight. *)
Definition call_in_flight (w : World) : Prop :=
  ∃ rid k, pending w !! rid = Some k.

(** The sample user of the component's tests. *)
Definition mockUserWithBio : User :=
  {| id := "user-123"; email := "john.doe@example.com";
     firstName := "John"; lastName := "Doe";
     avatar := Some "https://example.com/avatar.jpg";
     bio := Some "Software developer";
     role := Role.user; createdAt := "2025-01-01T00:00:00Z";
     updatedAt := "2025-12-16T00:00:00Z" |}.

(** * Properties *)

(** ** What the continuations do to each component of the world *)

Section Continuations.

Variables (res : FetchResult) (w : World).

Lemma fetchUser_resume_state :
  state (exec (fetchUser_resume res) w) = apply_fetch_result res (state w).
Proof. destruct res as [[[] status [u | err]] | err]; reflexivity. Qed.

Lemma updateUser_resume_state cb :
  state (exec (updateUser_resume cb res) w) =
    match outcome_of res with
    | inl f => operation_failed (error_message "update" f) (state w)
    | inr u =>
        match cb with
        | None => update_succeeded u (state w)
        | Some notify =>
            match notify u with
            | None => update_succeeded u (state w)
            | Some err =>
                operation_failed (message_of "Failed to update user" err)
                                 (update_succeeded u (state w))
            end
        end
    end.
Proof.
  destruct res as [[[] status [u | err]] | err]; try reflexivity.
  destruct cb as [notify |]; [| reflexivity].
  unfold exec, updateUser_resume, try_catch, mbind, async_bind; simpl.
  unfold call_onUpdate. destruct (notify u); reflexivity.
Qed.

Lemma resume_frame k :
  let w' := exec (resume k res) w in
  props w' = props w ∧ pending w' = pending w ∧
  next_rid w' = next_rid w ∧ calls w' = calls w.
Proof.
  destruct k as [| [notify |]];
    destruct res as [[[] status [u | err]] | err]; try (repeat split; reflexivity).
  unfold exec, resume, updateUser_resume, try_catch, mbind, async_bind; simpl.
  unfold call_onUpdate. destruct (notify u); repeat split; reflexivity.
Qed.

End Continuations.

(** ** Settling a suspended call *)

Lemma settle_pending w rid k res :
  pending w !! rid = Some k →
  step w (Settle rid res) = exec (resume k res) (drop_pending rid w).
Proof. intros Hk. simpl. unfold settle. now rewrite Hk. Qed.

Lemma settle_fetch_state w rid res :
  pending w !! rid = Some FetchUserK →
  state (step w (Settle rid res)) = apply_fetch_result res (state w).
Proof.
  intros Hk. rewrite (settle_pending _ _ _ _ Hk).
  exact (fetchUser_resume_state res (drop_pending rid w)).
Qed.

Lemma settle_update_failure_state w rid cb res f :
  pending w !! rid = Some (UpdateUserK cb) →
  outcome_of res = inl f →
  state (step w (Settle rid res)) =
    operation_failed (error_message "update" f) (state w).
Proof.
  intros Hk Hf. rewrite (settle_pending _ _ _ _ Hk).
  change (resume (UpdateUserK cb) res) with (updateUser_resume cb res).
  rewrite updateUser_resume_state, Hf. reflexivity.
Qed.

Lemma settle_update_success_state w rid cb res u :
  pending w !! rid = Some (UpdateUserK cb) →
  outcome_of res = inr u →
  let s := state (step w (Settle rid res)) in
  s = update_succeeded u (state w) ∨
  ∃ message, s = operation_failed message (update_succeeded u (state w)).
Proof.
  intros Hk Hu. cbv zeta. rewrite (settle_pending _ _ _ _ Hk).
  change (resume (UpdateUserK cb) res) with (updateUser_resume cb res).
  rewrite updateUser_resume_state, Hu.
  change (state (drop_pending rid w)) with (state w).
  destruct cb as [notify |]; [| now left].
  destruct (notify u); [right; eauto | now left].
Qed.

Lemma settle_calls w rid res : calls (step w (Settle rid res)) = calls w.
Proof.
  simpl. unfold settle. destruct (pending w !! rid) as [k |]; [| reflexivity].
  apply (resume_frame res (drop_pending rid w) k).
Qed.

(** ** The guard of updateUser *)

(** C3: a call of [updateUser] made while no user is held does nothing at
    all: the world after the call is the world before it, so no remote
    call is issued, nothing is suspended, and the state (with its
    [isEditing] and [isLoading] flags) is the same. *)
Theorem updateUser_without_user_is_noop (w : World) (payload : UpdateUserPayload) :
  user (state w) = None →
  let w' := step w (CallUpdateUser payload) in
  w' = w ∧ calls w' = calls w ∧ pending w' = pending w ∧
  isEditing (state w') = isEditing (state w) ∧
  isLoading (state w') = isLoading (state w).
Proof.
  intros Hnone. simpl. unfold updateUser_call. rewrite Hnone. repeat split.
Qed.

Lemma updateUser_without_user_is_noop_witness :
  let w := run (mount (props_of "invalid-id")) [Settle 0 (failed_response "Not Found")] in
  user (state w) = None ∧
  step w (CallUpdateUser jane_patch) = w ∧
  calls (step w (CallUpdateUser jane_patch)) = [GET "/api/users/invalid-id"].
Proof.
  simpl. split; [reflexivity |]. split.
  - apply (updateUser_without_user_is_noop
             (run (mount (props_of "invalid-id")) [Settle 0 (failed_response "Not Found")])
             jane_patch).
    reflexivity.
  - reflexivity.
Defined.

(** ** The start of an operation *)

(** C9: the first state published by [fetchUser] (called by hand, by the
    effect at mount, or by the effect after [userId] changed) and by an
    [updateUser] that passes its guard has [isLoading] true and [error]
    absent, whatever error was displayed before; the user and the
    [isEditing] flag are as they were. *)
Theorem operation_start_sets_loading_clears_error :
  (∀ p, state (mount p) = begin_operation initial_state) ∧
  (∀ w, state (step w CallFetchUser) = begin_operation (state w)) ∧
  (∀ w p, userId p ≠ userId (props w) →
          state (step w (Rerender p)) = begin_operation (state w)) ∧
  (∀ w payload u, user (state w) = Some u →
          state (step w (CallUpdateUser payload)) = begin_operation (state w)) ∧
  (∀ s, isLoading (begin_operation s) = true ∧ error (begin_operation s) = None ∧
        user (begin_operation s) = user s ∧
        isEditing (begin_operation s) = isEditing s).
Proof.
  repeat split.
  - intros w p Hne. simpl. unfold rerender.
    destruct (decide (userId p = userId (props w))); [contradiction | reflexivity].
  - intros w payload u Hu. simpl. unfold updateUser_call. now rewrite Hu.
Qed.

Lemma operation_start_sets_loading_clears_error_witness :
  let w := run (mount (props_of "user-123"))
               [Settle 0 (ok_response mockUser); CallUpdateUser jane_patch;
                Settle 1 (failed_response "Forbidden")] in
  error (state w) = Some "Failed to update user: Forbidden" ∧
  state (step w (Rerender (props_of "user-456"))) = begin_operation (state w) ∧
  state (step w (CallUpdateUser jane_patch)) = begin_operation (state w) ∧
  error (state (step w (CallUpdateUser jane_patch))) = None ∧
  isLoading (state (step w (CallUpdateUser jane_patch))) = true.
Proof.
  pose proof operation_start_sets_loading_clears_error as (_ & _ & Hbind & Hupd & _).
  simpl. split; [reflexivity |]. split; [| split].
  - apply Hbind. simpl. discriminate.
  - apply (Hupd _ jane_patch mockUser). reflexivity.
  - split; reflexivity.
Defined.

(** ** The outcome of an update *)

(** C4: when the call an [updateUser] is suspended on settles with a
    success carrying the user [u], the state published has [isEditing]
    false and holds exactly [u], whatever user was held before and
    whatever patch was submitted. *)
Theorem update_success_replaces_user
    (w : World) (rid : nat) (cb : option (User → option Thrown))
    (res : FetchResult) (u : User) :
  pending w !! rid = Some (UpdateUserK cb) →
  outcome_of res = inr u →
  let w' := step w (Settle rid res) in
  isEditing (state w') = false ∧ user (state w') = Some u.
Proof.
  intros Hk Hu. cbv zeta.
  destruct (settle_update_success_state w rid cb res u Hk Hu) as [-> | [m ->]];
    split; reflexivity.
Qed.

Lemma update_success_replaces_user_witness :
  let w := run (mount (props_of "user-123"))
               [Settle 0 (ok_response mockUser); CallSetEditing true;
                CallUpdateUser bio_patch] in
  (isEditing (state w) = true ∧ user (state w) = Some mockUser) ∧
  isEditing (state (step w (Settle 1 (ok_response user2)))) = false ∧
  user (state (step w (Settle 1 (ok_response user2)))) = Some user2.
Proof.
  cbv zeta. split; [split; reflexivity |].
  apply (update_success_replaces_user _ 1 None (ok_response user2) user2);
    reflexivity.
Defined.

(** C5: when the call an [updateUser] is suspended on settles with a
    failure, the user held is left as it is and [error] is set to the
    message of the failure.  In particular an update submitted while [u]
    is held and failing next leaves [u] held. *)
Theorem update_failure_keeps_user
    (w : World) (rid : nat) (cb : option (User → option Thrown))
    (res : FetchResult) (f : Failure) :
  pending w !! rid = Some (UpdateUserK cb) →
  outcome_of res = inl f →
  (let w' := step w (Settle rid res) in
   user (state w') = user (state w) ∧
   error (state w') = Some (error_message "update" f)) ∧
  (∀ v payload u, user (state v) = Some u →
     let v' := run v [CallUpdateUser payload; Settle (next_rid v) res] in
     user (state v') = Some u ∧
     error (state v') = Some (error_message "update" f)).
Proof.
  intros Hk Hf. split.
  - cbv zeta. rewrite (settle_update_failure_state w rid cb res f Hk Hf).
    split; reflexivity.
  - intros v payload u Hu. cbv zeta.
    change (run v [CallUpdateUser payload; Settle (next_rid v) res])
      with (step (step v (CallUpdateUser payload)) (Settle (next_rid v) res)).
    assert (Hin : pending (step v (CallUpdateUser payload)) !! next_rid v
                  = Some (UpdateUserK (onUpdate (props v)))).
    { simpl. unfold updateUser_call. rewrite Hu. simpl. apply lookup_insert_eq. }
    rewrite (settle_update_failure_state _ _ _ res f Hin Hf).
    simpl. unfold updateUser_call. rewrite Hu. split; [exact Hu | reflexivity].
Qed.

Lemma update_failure_keeps_user_witness :
  let w := run (mount (props_of "user-123"))
               [Settle 0 (ok_response mockUser); CallUpdateUser jane_patch] in
  user (state (step w (Settle 1 (failed_response "Forbidden")))) = Some mockUser ∧
  error (state (step w (Settle 1 (failed_response "Forbidden"))))
    = Some "Failed to update user: Forbidden".
Proof.
  cbv zeta.
  exact (proj1 (update_failure_keeps_user
                  (run (mount (props_of "user-123"))
                       [Settle 0 (ok_response mockUser); CallUpdateUser jane_patch])
                  1 None (failed_response "Forbidden") (NotOk "Forbidden")
                  eq_refl eq_refl)).
Defined.

(** C10: the failure of an update leaves [isEditing] (and the user) as
    they are and writes only [error] and [isLoading]; a hook that was in
    edit mode when the update failed is still in edit mode. *)
Theorem update_failure_keeps_isEditing
    (w : World) (rid : nat) (cb : option (User → option Thrown))
    (res : FetchResult) (f : Failure) :
  pending w !! rid = Some (UpdateUserK cb) →
  outcome_of res = inl f →
  let w' := step w (Settle rid res) in
  state w' = {| user := user (state w); isLoading := false;
                error := Some (error_message "update" f);
                isEditing := isEditing (state w) |} ∧
  isEditing (state w') = isEditing (state w) ∧
  (isEditing (state w) = true → isEditing (state w') = true).
Proof.
  intros Hk Hf. cbv zeta.
  rewrite (settle_update_failure_state w rid cb res f Hk Hf).
  repeat split. intros He; exact He.
Qed.

Lemma update_failure_keeps_isEditing_witness :
  let w := run (mount (props_of "user-123"))
               [Settle 0 (ok_response mockUser); CallSetEditing true;
                CallUpdateUser jane_patch] in
  isEditing (state w) = true ∧
  isEditing (state (step w (Settle 1 (Rejected (ThrownError "Network error"))))) = true.
Proof.
  cbv zeta. split; [reflexivity |].
  apply (update_failure_keeps_isEditing
           (run (mount (props_of "user-123"))
                [Settle 0 (ok_response mockUser); CallSetEditing true;
                 CallUpdateUser jane_patch])
           1 None (Rejected (ThrownError "Network error"))
           (Threw (ThrownError "Network error")) eq_refl eq_refl).
  reflexivity.
Defined.

(** ** The outcome of a fetch *)

(** C6, as stated, fails: a refetch issued by hand while [mockUser] is
    held and answered with "Not Found" stores the error message and still
    holds [mockUser]. *)
Lemma refetch_failure_retains_user :
  let w := run (mount (props_of "user-123"))
               [Settle 0 (ok_response mockUser); CallFetchUser] in
  let w' := step w (Settle 1 (failed_response "Not Found")) in
  pending w !! 1 = Some FetchUserK ∧
  outcome_of (failed_response "Not Found") = inl (NotOk "Not Found") ∧
  error (state w') = Some "Failed to fetch user: Not Found" ∧
  user (state w') = Some mockUser ∧
  user (state w') ≠ None.
Proof. cbv zeta. repeat split. discriminate. Qed.

(** C6, amended: when the call a [fetchUser] is suspended on settles with
    a failure, the state stores the error message, [isLoading] becomes
    false, and the user is left as it was: absent when none was held (the
    first fetch after mounting), retained when one was held. *)
Theorem fetch_failure_stores_error_keeps_user
    (w : World) (rid : nat) (res : FetchResult) (f : Failure) :
  pending w !! rid = Some FetchUserK →
  outcome_of res = inl f →
  let w' := step w (Settle rid res) in
  error (state w') = Some (error_message "fetch" f) ∧
  isLoading (state w') = false ∧
  user (state w') = user (state w) ∧
  (user (state w) = None → user (state w') = None).
Proof.
  intros Hk Hf. cbv zeta. rewrite (settle_fetch_state w rid res Hk).
  unfold apply_fetch_result. rewrite Hf. repeat split. intros Hn; exact Hn.
Qed.

Lemma fetch_failure_stores_error_keeps_user_witness :
  let w := mount (props_of "invalid-id") in
  let w' := step w (Settle 0 (failed_response "Not Found")) in
  error (state w') = Some "Failed to fetch user: Not Found" ∧
  isLoading (state w') = false ∧
  user (state w') = user (state w) ∧
  (user (state w) = None → user (state w') = None).
Proof.
  cbv zeta.
  exact (fetch_failure_stores_error_keeps_user
           (mount (props_of "invalid-id")) 0 (failed_response "Not Found")
           (NotOk "Not Found") eq_refl eq_refl).
Defined.

(** ** The error message *)

(** C7, as stated, fails on the first of its three cases: for a fetch
    answered "Not Found" the hook stores "Failed to fetch user: Not Found",
    where the specified wording gives "Failed to fetch: Not Found"; and
    likewise for an update answered "Forbidden". *)
Lemma status_message_differs_from_specified :
  let w := mount (props_of "invalid-id") in
  let v := run (mount (props_of "user-123"))
               [Settle 0 (ok_response mockUser); CallUpdateUser jane_patch] in
  error (state (step w (Settle 0 (failed_response "Not Found"))))
    = Some "Failed to fetch user: Not Found" ∧
  specified_error_message "fetch" (NotOk "Not Found") = "Failed to fetch: Not Found" ∧
  error (state (step w (Settle 0 (failed_response "Not Found"))))
    ≠ Some (specified_error_message "fetch" (NotOk "Not Found")) ∧
  error (state (step v (Settle 1 (failed_response "Forbidden"))))
    = Some "Failed to update user: Forbidden" ∧
  error (state (step v (Settle 1 (failed_response "Forbidden"))))
    ≠ Some (specified_error_message "update" (NotOk "Forbidden")).
Proof. cbv zeta. repeat split; discriminate. Qed.

(** C7, amended: for every failed fetch or update the stored error is,
    with {operation} being "fetch" or "update":
    "Failed to {operation} user: {statusText}" when the response is not ok;
    the message verbatim when an [Error] was thrown;
    "Failed to {operation} user" when something else was thrown. *)
Theorem failure_error_message
    (w : World) (rid : nat) (k : Suspended) (res : FetchResult) (f : Failure) :
  pending w !! rid = Some k →
  outcome_of res = inl f →
  let operation := operation_word k in
  error (state (step w (Settle rid res))) =
    Some match f with
         | NotOk status => "Failed to " +:+ operation +:+ " user: " +:+ status
         | Threw (ThrownError message) => message
         | Threw ThrownValue => "Failed to " +:+ operation +:+ " user"
         end.
Proof.
  intros Hk Hf. cbv zeta. destruct k as [| cb].
  - rewrite (settle_fetch_state w rid res Hk). unfold apply_fetch_result.
    rewrite Hf. destruct f as [status | [message |]]; reflexivity.
  - rewrite (settle_update_failure_state w rid cb res f Hk Hf).
    destruct f as [status | [message |]]; reflexivity.
Qed.

Lemma failure_error_message_witness :
  let v := run (mount (props_of "user-123"))
               [Settle 0 (ok_response mockUser); CallUpdateUser jane_patch] in
  error (state (step (mount (props_of "invalid-id"))
                     (Settle 0 (failed_response "Not Found"))))
    = Some "Failed to fetch user: Not Found" ∧
  error (state (step (mount (props_of "user-123"))
                     (Settle 0 (Rejected (ThrownError "Network error")))))
    = Some "Network error" ∧
  error (state (step v (Settle 1 (Rejected ThrownValue))))
    = Some "Failed to update user".
Proof.
  cbv zeta. split; [| split].
  - exact (failure_error_message (mount (props_of "invalid-id")) 0 FetchUserK
             (failed_response "Not Found") (NotOk "Not Found") eq_refl eq_refl).
  - exact (failure_error_message (mount (props_of "user-123")) 0 FetchUserK
             (Rejected (ThrownError "Network error"))
             (Threw (ThrownError "Network error")) eq_refl eq_refl).
  - exact (failure_error_message
             (run (mount (props_of "user-123"))
                  [Settle 0 (ok_response mockUser); CallUpdateUser jane_patch])
             1 (UpdateUserK None) (Rejected ThrownValue) (Threw ThrownValue)
             eq_refl eq_refl).
Defined.

(** ** Reachable worlds *)

Lemma run_snoc w evs e : run w (evs ++ [e]) = step (run w evs) e.
Proof. unfold run. apply foldl_snoc. Qed.

Lemma reachable_mount p : reachable (mount p).
Proof. exists p, []. reflexivity. Qed.

Lemma reachable_step w e : reachable w → reachable (step w e).
Proof. intros (p & evs & ->). exists p, (evs ++ [e]). now rewrite run_snoc. Qed.

Lemma reachable_run p evs : reachable (run (mount p) evs).
Proof. exists p, evs. reflexivity. Qed.

Lemma reachable_induction (P : World → Prop) :
  (∀ p, P (mount p)) →
  (∀ w e, reachable w → P w → P (step w e)) →
  ∀ w, reachable w → P w.
Proof.
  intros Hmount Hstep w (p & evs & ->).
  induction evs as [| e evs IH] using rev_ind.
  - apply Hmount.
  - rewrite run_snoc. apply Hstep; [apply reachable_run | exact IH].
Qed.

(** ** Loading and error *)

Lemma settle_state_cases w rid res :
  state (step w (Settle rid res)) = state w ∨
  isLoading (state (step w (Settle rid res))) = false.
Proof.
  destruct (pending w !! rid) as [[| cb] |] eqn:Hk.
  - right. rewrite (settle_fetch_state w rid res Hk). unfold apply_fetch_result.
    destruct (outcome_of res); reflexivity.
  - right. destruct (outcome_of res) as [f | u] eqn:Hres.
    + now rewrite (settle_update_failure_state w rid cb res f Hk Hres).
    + destruct (settle_update_success_state w rid cb res u Hk Hres)
        as [-> | [m ->]]; reflexivity.
  - left. simpl. unfold settle. now rewrite Hk.
Qed.

Lemma step_settled_error w e :
  settled_error (state w) → settled_error (state (step w e)).
Proof.
  intros Hinv. destruct e as [p | | payload | b | | rid res].
  - simpl. unfold rerender.
    destruct (decide (userId p = userId (props w))); [exact Hinv |].
    intros [m Hm]. discriminate Hm.
  - intros [m Hm]. discriminate Hm.
  - simpl. unfold updateUser_call. destruct (user (state w)); [| exact Hinv].
    intros [m Hm]. discriminate Hm.
  - exact Hinv.
  - intros [m Hm]. discriminate Hm.
  - destruct (settle_state_cases w rid res) as [-> | Hl]; [exact Hinv |].
    intros _. exact Hl.
Qed.

(** C8: in every state the hook can reach, and so in every state
    published after an operation has settled with a failure, a stored
    error implies that [isLoading] is false; the state published by the
    failure itself has the error set and [isLoading] false.  [isEditing]
    is independent of both: it is true in reachable states with each
    combination of [isLoading] and [error] that the invariant allows. *)
Theorem error_excludes_loading :
  (∀ w message, reachable w →
     error (state w) = Some message → isLoading (state w) = false) ∧
  (∀ w rid k res f, pending w !! rid = Some k → outcome_of res = inl f →
     let s := state (step w (Settle rid res)) in
     is_Some (error s) ∧ isLoading s = false) ∧
  (∃ w, reachable w ∧ isEditing (state w) = true ∧
        isLoading (state w) = true ∧ error (state w) = None) ∧
  (∃ w message, reachable w ∧ isEditing (state w) = true ∧
        isLoading (state w) = false ∧ error (state w) = Some message) ∧
  (∃ w, reachable w ∧ isEditing (state w) = true ∧
        isLoading (state w) = false ∧ error (state w) = None).
Proof.
  split; [| split; [| split; [| split]]].
  - intros w message Hw Herr.
    assert (Hinv : settled_error (state w)).
    { clear Herr. revert w Hw. apply reachable_induction.
      - intros p [m Hm]. discriminate Hm.
      - intros w e _. apply step_settled_error. }
    apply Hinv. rewrite Herr. eauto.
  - intros w rid k res f Hk Hf. cbv zeta. destruct k as [| cb].
    + rewrite (settle_fetch_state w rid res Hk). unfold apply_fetch_result.
      rewrite Hf. split; [eexists; reflexivity | reflexivity].
    + rewrite (settle_update_failure_state w rid cb res f Hk Hf).
      split; [eexists; reflexivity | reflexivity].
  - exists (run (mount (props_of "user-123")) [CallSetEditing true]).
    split; [apply reachable_run | repeat split].
  - exists (run (mount (props_of "user-123"))
                [CallSetEditing true; Settle 0 (failed_response "Not Found")]),
           "Failed to fetch user: Not Found".
    split; [apply reachable_run | repeat split].
  - exists (run (mount (props_of "user-123"))
                [Settle 0 (ok_response mockUser); CallSetEditing true]).
    split; [apply reachable_run | repeat split].
Qed.

Lemma error_excludes_loading_witness :
  let w := run (mount (props_of "user-123"))
               [Settle 0 (ok_response mockUser); CallSetEditing true;
                CallUpdateUser jane_patch; CallFetchUser;
                Settle 2 (ok_response user2);
                Settle 1 (failed_response "Forbidden")] in
  error (state w) = Some "Failed to update user: Forbidden" ∧
  isLoading (state w) = false.
Proof.
  cbv zeta. split; [reflexivity |].
  apply (proj1 error_excludes_loading _ "Failed to update user: Forbidden").
  - apply reachable_run.
  - reflexivity.
Defined.

(** ** Suspended calls *)

Lemma settle_pending_next w rid res :
  pending (step w (Settle rid res)) = delete rid (pending w) ∧
  next_rid (step w (Settle rid res)) = next_rid w.
Proof.
  simpl. unfold settle. destruct (pending w !! rid) as [k |] eqn:Hk.
  - destruct (resume_frame res (drop_pending rid w) k) as (_ & Hp & Hn & _).
    cbv zeta in Hp, Hn. rewrite Hp, Hn. split; reflexivity.
  - split; [symmetry; now apply delete_id | reflexivity].
Qed.

Lemma step_fresh_rids w e : fresh_rids w → fresh_rids (step w e).
Proof.
  intros Hfresh.
  assert (Hcall : ∀ (m : gmap nat Suspended) k rid,
            m = pending w → S (next_rid w) ≤ rid →
            <[next_rid w := k]> m !! rid = None).
  { intros m k rid -> Hle. rewrite lookup_insert_ne by lia. apply Hfresh. lia. }
  destruct e as [p | | payload | b | | rid' res]; intros rid Hle.
  - simpl in *. unfold rerender in *.
    destruct (decide (userId p = userId (props w))); simpl in *.
    + now apply Hfresh.
    + now apply Hcall.
  - simpl in *. now apply Hcall.
  - simpl in *. unfold updateUser_call in *.
    destruct (user (state w)); simpl in *.
    + now apply Hcall.
    + now apply Hfresh.
  - now apply Hfresh.
  - now apply Hfresh.
  - destruct (settle_pending_next w rid' res) as [Hp Hn].
    rewrite Hn in Hle. rewrite Hp. apply lookup_delete_None. right. now apply Hfresh.
Qed.

Lemma settle_user_cases w rid res :
  user (state (step w (Settle rid res))) = user (state w) ∨
  is_Some (user (state (step w (Settle rid res)))).
Proof.
  destruct (pending w !! rid) as [[| cb] |] eqn:Hk.
  - rewrite (settle_fetch_state w rid res Hk). unfold apply_fetch_result.
    destruct (outcome_of res); [now left | right; simpl; eauto].
  - destruct (outcome_of res) as [f | u] eqn:Hres.
    + left. now rewrite (settle_update_failure_state w rid cb res f Hk Hres).
    + right. destruct (settle_update_success_state w rid cb res u Hk Hres)
        as [-> | [m ->]]; simpl; eauto.
  - left. simpl. unfold settle. now rewrite Hk.
Qed.

Lemma step_user_mono w e :
  is_Some (user (state w)) → is_Some (user (state (step w e))).
Proof.
  intros Hu. destruct e as [p | | payload | b | | rid res]; try exact Hu.
  - simpl. unfold rerender.
    destruct (decide (userId p = userId (props w))); exact Hu.
  - simpl. unfold updateUser_call.
    destruct (user (state w)) eqn:Heq; simpl; rewrite Heq; exact Hu.
  - destruct (settle_user_cases w rid res) as [-> | Hs]; assumption.
Qed.

Lemma step_pending_update w e rid cb :
  pending (step w e) !! rid = Some (UpdateUserK cb) →
  pending w !! rid = Some (UpdateUserK cb) ∨ is_Some (user (state w)).
Proof.
  assert (Hfetch : ∀ m : gmap nat Suspended,
            <[next_rid w := FetchUserK]> m !! rid = Some (UpdateUserK cb) →
            m !! rid = Some (UpdateUserK cb)).
  { intros m [[_ Heq] | [_ Hin]]%lookup_insert_Some; [discriminate | exact Hin]. }
  destruct e as [p | | payload | b | | rid' res]; simpl.
  - unfold rerender. destruct (decide (userId p = userId (props w))); simpl.
    + now left.
    + intros Hin. left. now apply Hfetch.
  - intros Hin. left. now apply Hfetch.
  - unfold updateUser_call. destruct (user (state w)); [right; eauto | now left].
  - now left.
  - now left.
  - intros Hin. left.
    destruct (settle_pending_next w rid' res) as [Hp _].
    simpl in Hp. rewrite Hp in Hin. now apply lookup_delete_Some in Hin.
Qed.

Lemma step_updates_have_user w e :
  updates_have_user w → updates_have_user (step w e).
Proof.
  intros Hinv (rid & cb & Hin). apply step_user_mono.
  destruct (step_pending_update w e rid cb Hin) as [Hold | Hu]; [| exact Hu].
  apply Hinv. now exists rid, cb.
Qed.

Lemma reachable_fresh_rids w : reachable w → fresh_rids w.
Proof.
  revert w. apply reachable_induction.
  - intros p rid Hle. simpl in *. rewrite lookup_insert_ne by lia.
    apply lookup_empty.
  - intros w e _. apply step_fresh_rids.
Qed.

Lemma reachable_updates_have_user w : reachable w → updates_have_user w.
Proof.
  revert w. apply reachable_induction.
  - intros p (rid & cb & Hin). simpl in Hin.
    apply lookup_insert_Some in Hin as [[_ Heq] | [_ Hin]]; [discriminate |].
    now rewrite lookup_empty in Hin.
  - intros w e _. apply step_updates_have_user.
Qed.

(** ** Overlapping updates *)

(** C2, as stated, fails: with a user held and an update in flight, a
    second call of [updateUser] issues a second PATCH and is suspended on
    it next to the first. *)
Lemma second_update_issues_second_call :
  let w := run (mount (props_of "user-123"))
               [Settle 0 (ok_response mockUser); CallUpdateUser jane_patch] in
  let w' := step w (CallUpdateUser bio_patch) in
  pending w !! 1 = Some (UpdateUserK None) ∧
  calls w = [GET "/api/users/user-123"; PATCH "/api/users/user-123" jane_patch] ∧
  calls w' = [GET "/api/users/user-123"; PATCH "/api/users/user-123" jane_patch;
              PATCH "/api/users/user-123" bio_patch] ∧
  calls w' ≠ calls w ∧
  pending w' !! 1 = Some (UpdateUserK None) ∧
  pending w' !! 2 = Some (UpdateUserK None).
Proof. cbv zeta. repeat split. discriminate. Qed.

(** C2, amended: the hook has no guard against overlapping updates.  In
    every reachable world with an update in flight, a further call of
    [updateUser] issues one more PATCH for the current [userId] and is
    suspended on it under an unused number, so that the updates in flight
    are one more than before; the state published is the previous one
    with [isLoading] set and [error] cleared, which is the previous state
    itself when it was still loading without error. *)
Theorem overlapping_update_is_issued (w : World) (payload : UpdateUserPayload) :
  reachable w →
  update_in_flight w →
  let w' := step w (CallUpdateUser payload) in
  calls w' = calls w ++ [PATCH (api_url (userId (props w))) payload] ∧
  pending w !! next_rid w = None ∧
  pending w' = <[next_rid w := UpdateUserK (onUpdate (props w))]> (pending w) ∧
  (∀ rid k, pending w !! rid = Some k → pending w' !! rid = Some k) ∧
  state w' = begin_operation (state w) ∧
  (isLoading (state w) = true → error (state w) = None → state w' = state w).
Proof.
  intros Hreach Hflight. cbv zeta.
  destruct (reachable_updates_have_user w Hreach Hflight) as [u Hu].
  pose proof (reachable_fresh_rids w Hreach (next_rid w) (le_n _)) as Hfresh.
  simpl. unfold updateUser_call. rewrite Hu. simpl.
  split; [reflexivity |]. split; [exact Hfresh |]. split; [reflexivity |].
  split; [| split; [reflexivity |]].
  - intros rid k Hin. rewrite lookup_insert_ne; [exact Hin |].
    intros <-. rewrite Hfresh in Hin. discriminate.
  - intros Hl He. destruct (state w) as [su sl se sed]. simpl in *.
    now subst.
Qed.

Lemma overlapping_update_is_issued_witness :
  let w := run (mount (props_of "user-123"))
               [Settle 0 (ok_response mockUser); CallUpdateUser jane_patch] in
  let w' := step w (CallUpdateUser bio_patch) in
  calls w' = calls w ++ [PATCH "/api/users/user-123" bio_patch] ∧
  pending w' !! 1 = Some (UpdateUserK None) ∧
  state w' = state w.
Proof.
  cbv zeta.
  destruct (overlapping_update_is_issued
              (run (mount (props_of "user-123"))
                   [Settle 0 (ok_response mockUser); CallUpdateUser jane_patch])
              bio_patch)
    as (Hcalls & _ & _ & Hkeep & _ & Hsame).
  - apply reachable_run.
  - exists 1, None. reflexivity.
  - split; [exact Hcalls |]. split.
    + apply Hkeep. reflexivity.
    + apply Hsame; reflexivity.
Defined.

(** ** Fetches for two successively bound identities *)

(** C1, as stated, fails: mount with "user-123", re-render with
    "user-456" before the first fetch settles, let the second fetch
    settle first and the first one after it.  Nothing is in flight any
    more, the bound identity is "user-456", and the state holds the user
    fetched for "user-123". *)
Lemma stale_fetch_overwrites_current :
  let w := run (mount (props_of "user-123"))
               [Rerender (props_of "user-456");
                Settle 1 (ok_response user2);
                Settle 0 (ok_response mockUser)] in
  calls w = [GET "/api/users/user-123"; GET "/api/users/user-456"] ∧
  userId (props w) = "user-456" ∧
  pending w !! 0 = None ∧ pending w !! 1 = None ∧
  isLoading (state w) = false ∧
  user (state w) = Some mockUser ∧
  id mockUser = "user-123" ∧
  user (state w) ≠ Some user2.
Proof. cbv zeta. repeat split. discriminate. Qed.

(** C1, amended: the hook has no generation token.  After mounting with
    one identity and re-rendering with another before the first fetch
    settles, both fetches are in flight, and each result is applied to
    the state when it arrives, whichever identity it was fetched for: the
    settled state is the state at the re-render with the two outcomes
    applied in the order of arrival.  So the user held is the one of the
    later successful arrival: the second identity's when its fetch settles
    last and succeeds, the first identity's when that one settles last
    and succeeds. *)
Theorem fetch_results_apply_in_arrival_order
    (pA pB : UseUserProfileOptions) (rA rB : FetchResult) :
  userId pA ≠ userId pB →
  let w := run (mount pA) [Rerender pB] in
  calls w = [GET (api_url (userId pA)); GET (api_url (userId pB))] ∧
  pending w !! 0 = Some FetchUserK ∧ pending w !! 1 = Some FetchUserK ∧
  state (run w [Settle 0 rA; Settle 1 rB])
    = apply_fetch_result rB (apply_fetch_result rA (state w)) ∧
  state (run w [Settle 1 rB; Settle 0 rA])
    = apply_fetch_result rA (apply_fetch_result rB (state w)) ∧
  (∀ uB, outcome_of rB = inr uB →
     user (state (run w [Settle 0 rA; Settle 1 rB])) = Some uB) ∧
  (∀ uA, outcome_of rA = inr uA →
     user (state (run w [Settle 1 rB; Settle 0 rA])) = Some uA).
Proof.
  intros Hne. cbv zeta.
  set (w := run (mount pA) [Rerender pB]).
  assert (Hcalls : calls w = [GET (api_url (userId pA)); GET (api_url (userId pB))]).
  { subst w. simpl. unfold rerender. simpl.
    destruct (decide (userId pB = userId pA)); [congruence | reflexivity]. }
  assert (Hpending : pending w = <[1 := FetchUserK]> (<[0 := FetchUserK]> ∅)).
  { subst w. simpl. unfold rerender. simpl.
    destruct (decide (userId pB = userId pA)); [congruence | reflexivity]. }
  assert (H0 : pending w !! 0 = Some FetchUserK) by now rewrite Hpending.
  assert (H1 : pending w !! 1 = Some FetchUserK) by now rewrite Hpending.
  assert (HAB : state (run w [Settle 0 rA; Settle 1 rB])
                = apply_fetch_result rB (apply_fetch_result rA (state w))).
  { change (run w [Settle 0 rA; Settle 1 rB])
      with (step (step w (Settle 0 rA)) (Settle 1 rB)).
    rewrite settle_fetch_state, (settle_fetch_state w 0 rA H0); [reflexivity |].
    destruct (settle_pending_next w 0 rA) as [-> _].
    now rewrite lookup_delete_ne. }
  assert (HBA : state (run w [Settle 1 rB; Settle 0 rA])
                = apply_fetch_result rA (apply_fetch_result rB (state w))).
  { change (run w [Settle 1 rB; Settle 0 rA])
      with (step (step w (Settle 1 rB)) (Settle 0 rA)).
    rewrite settle_fetch_state, (settle_fetch_state w 1 rB H1); [reflexivity |].
    destruct (settle_pending_next w 1 rB) as [-> _].
    now rewrite lookup_delete_ne. }
  repeat split; try assumption.
  - intros uB HuB. rewrite HAB. unfold apply_fetch_result at 1. now rewrite HuB.
  - intros uA HuA. rewrite HBA. unfold apply_fetch_result at 1. now rewrite HuA.
Qed.

Lemma fetch_results_apply_in_arrival_order_witness :
  let w := run (mount (props_of "user-123")) [Rerender (props_of "user-456")] in
  user (state (run w [Settle 0 (ok_response mockUser); Settle 1 (ok_response user2)]))
    = Some user2 ∧
  user (state (run w [Settle 1 (ok_response user2); Settle 0 (ok_response mockUser)]))
    = Some mockUser.
Proof.
  cbv zeta.
  destruct (fetch_results_apply_in_arrival_order
              (props_of "user-123") (props_of "user-456")
              (ok_response mockUser) (ok_response user2))
    as (_ & _ & _ & _ & _ & HlastB & HlastA).
  - simpl. discriminate.
  - split; [apply HlastB | apply HlastA]; reflexivity.
Defined.

(** * Further properties of the hook *)

(** ** Notifications *)

Lemma fetchUser_resume_notified res w :
  notified (exec (fetchUser_resume res) w) = notified w.
Proof. destruct res as [[[] status [u | err]] | err]; reflexivity. Qed.

Lemma updateUser_resume_notified cb res w :
  notified (exec (updateUser_resume cb res) w) =
    match outcome_of res, cb with
    | inr u, Some _ => notified w ++ [u]
    | _, _ => notified w
    end.
Proof.
  destruct res as [[[] status [u | err]] | err]; try (destruct cb; reflexivity).
  destruct cb as [notify |]; [| reflexivity].
  unfold exec, updateUser_resume, try_catch, mbind, async_bind; simpl.
  unfold call_onUpdate. destruct (notify u); reflexivity.
Qed.

Lemma settle_unknown w rid res :
  pending w !! rid = None → step w (Settle rid res) = w.
Proof. intros Hk. simpl. unfold settle. now rewrite Hk. Qed.

Lemma settle_known_not_loading w rid k res :
  pending w !! rid = Some k →
  isLoading (state (step w (Settle rid res))) = false.
Proof.
  intros Hk. destruct (settle_state_cases w rid res) as [Heq | Hl]; [| exact Hl].
  destruct k as [| cb].
  - rewrite (settle_fetch_state w rid res Hk). unfold apply_fetch_result.
    destruct (outcome_of res); reflexivity.
  - destruct (outcome_of res) as [f | u] eqn:Hres.
    + now rewrite (settle_update_failure_state w rid cb res f Hk Hres).
    + destruct (settle_update_success_state w rid cb res u Hk Hres)
        as [-> | [m ->]]; reflexivity.
Qed.

(** X1: when the call a [fetchUser] is suspended on settles with a
    success carrying [u], the state holds exactly [u] and is no longer
    loading, while [isEditing] and [error] are left as they are (a fetch
    that succeeds does not leave edit mode); [onUpdate] is not notified
    and no remote call is issued. *)
Theorem fetch_success_stores_user
    (w : World) (rid : nat) (res : FetchResult) (u : User) :
  pending w !! rid = Some FetchUserK →
  outcome_of res = inr u →
  let w' := step w (Settle rid res) in
  state w' = {| user := Some u; isLoading := false; error := error (state w);
                isEditing := isEditing (state w) |} ∧
  notified w' = notified w ∧ calls w' = calls w.
Proof.
  intros Hk Hu. cbv zeta. split; [| split].
  - rewrite (settle_fetch_state w rid res Hk). unfold apply_fetch_result.
    now rewrite Hu.
  - rewrite (settle_pending _ _ _ _ Hk).
    exact (fetchUser_resume_notified res (drop_pending rid w)).
  - apply settle_calls.
Qed.

Lemma fetch_success_stores_user_witness :
  let w := run (mount (props_of "user-123"))
               [Settle 0 (ok_response mockUser); CallSetEditing true; CallFetchUser] in
  user (state (step w (Settle 1 (ok_response user2)))) = Some user2 ∧
  isEditing (state (step w (Settle 1 (ok_response user2)))) = true.
Proof.
  cbv zeta.
  destruct (fetch_success_stores_user
              (run (mount (props_of "user-123"))
                   [Settle 0 (ok_response mockUser); CallSetEditing true; CallFetchUser])
              1 (ok_response user2) user2 eq_refl eq_refl) as (Hstate & _ & _).
  rewrite Hstate. split; reflexivity.
Defined.

(** X2: no event ever clears the user: once a user is held, one is held
    after every further sequence of events (failures, rebinding to
    another id and dismissals included). *)
Theorem user_never_cleared (w : World) (evs : list Event) :
  is_Some (user (state w)) → is_Some (user (state (run w evs))).
Proof.
  revert w. induction evs as [| e evs IH]; intros w Hu; [exact Hu |].
  simpl. apply IH. now apply step_user_mono.
Qed.

Lemma user_never_cleared_witness :
  is_Some (user (state (run (run (mount (props_of "user-123"))
                                 [Settle 0 (ok_response mockUser)])
                            [Rerender (props_of "missing");
                             Settle 1 (failed_response "Not Found");
                             CallClearError]))).
Proof.
  apply (user_never_cleared
           (run (mount (props_of "user-123")) [Settle 0 (ok_response mockUser)])).
  exists mockUser. reflexivity.
Defined.

(** X3: in every reachable world, [isLoading] true means that some
    network call is still in flight: the loading flag is never left set
    once every call has settled. *)
Theorem loading_has_call_in_flight (w : World) :
  reachable w → isLoading (state w) = true → call_in_flight w.
Proof.
  revert w.
  apply (reachable_induction (λ w, isLoading (state w) = true → call_in_flight w)).
  - intros p _. exists 0, FetchUserK. reflexivity.
  - intros w e _ IH.
    assert (Hissued : ∀ k (m : gmap nat Suspended),
              ∃ rid k', <[next_rid w := k]> m !! rid = Some k').
    { intros k m. exists (next_rid w), k. apply lookup_insert_eq. }
    destruct e as [p | | payload | b | | rid res].
    + simpl. unfold rerender.
      destruct (decide (userId p = userId (props w))); [exact IH |].
      intros _. apply Hissued.
    + intros _. apply Hissued.
    + simpl. unfold updateUser_call. destruct (user (state w)); [| exact IH].
      intros _. apply Hissued.
    + exact IH.
    + exact IH.
    + destruct (pending w !! rid) as [k |] eqn:Hk.
      * rewrite (settle_known_not_loading w rid k res Hk). discriminate.
      * rewrite (settle_unknown w rid res Hk). exact IH.
Qed.

Lemma loading_has_call_in_flight_witness :
  call_in_flight (run (mount (props_of "user-123"))
                      [Settle 0 (ok_response mockUser); CallFetchUser]).
Proof.
  apply loading_has_call_in_flight; [apply reachable_run | reflexivity].
Defined.

(** X4: there is no automatic retry: the settlement of a call, with
    whatever result, issues no remote call and suspends nothing new; the
    settled call is no longer in flight. *)
Theorem settle_issues_no_call (w : World) (rid : nat) (res : FetchResult) :
  let w' := step w (Settle rid res) in
  calls w' = calls w ∧
  pending w' !! rid = None ∧
  (∀ rid' k, pending w' !! rid' = Some k → pending w !! rid' = Some k).
Proof.
  cbv zeta. destruct (settle_pending_next w rid res) as [Hp _].
  split; [apply settle_calls |]. rewrite Hp. split.
  - apply lookup_delete_eq.
  - intros rid' k Hin. now apply lookup_delete_Some in Hin.
Qed.

(** X5: the effect refetches exactly when [userId] changes.  A render
    with the same [userId] (say with another [onUpdate]) only replaces
    the props; a render with another [userId] issues one GET for the new
    id and keeps the user held so far in the state. *)
Theorem rerender_refetches_on_userId_change (w : World) (p : UseUserProfileOptions) :
  let w' := step w (Rerender p) in
  props w' = p ∧ user (state w') = user (state w) ∧
  (userId p = userId (props w) →
     state w' = state w ∧ pending w' = pending w ∧ calls w' = calls w) ∧
  (userId p ≠ userId (props w) →
     calls w' = calls w ++ [GET (api_url (userId p))] ∧
     pending w' = <[next_rid w := FetchUserK]> (pending w)).
Proof.
  cbv zeta. simpl. unfold rerender.
  destruct (decide (userId p = userId (props w))) as [Heq | Hne].
  - split; [reflexivity |]. split; [reflexivity |].
    split; [intros _; repeat split | intros Hne; contradiction].
  - split; [reflexivity |]. split; [reflexivity |].
    split; [intros Heq; contradiction | intros _; split; reflexivity].
Qed.

Lemma rerender_refetches_on_userId_change_witness :
  let w := run (mount (props_of "user-123")) [Settle 0 (ok_response mockUser)] in
  calls (step w (Rerender {| userId := "user-123"; onUpdate := Some (λ _, None) |}))
    = calls w ∧
  calls (step w (Rerender (props_of "user-456")))
    = calls w ++ [GET "/api/users/user-456"].
Proof.
  cbv zeta. split.
  - apply (rerender_refetches_on_userId_change
             (run (mount (props_of "user-123")) [Settle 0 (ok_response mockUser)])
             {| userId := "user-123"; onUpdate := Some (λ _, None) |}).
    reflexivity.
  - apply (rerender_refetches_on_userId_change
             (run (mount (props_of "user-123")) [Settle 0 (ok_response mockUser)])
             (props_of "user-456")).
    simpl. discriminate.
Defined.

(** X6: an update submitted right after a change of [userId] is sent to
    the new id, while the user held (and displayed) is still the one of
    the previous id: the PATCH follows the [userId] prop, not the [id] of
    the user in the state. *)
Theorem update_after_rebind_targets_new_id
    (w : World) (p : UseUserProfileOptions) (payload : UpdateUserPayload) (u : User) :
  user (state w) = Some u →
  userId p ≠ userId (props w) →
  let w' := run w [Rerender p; CallUpdateUser payload] in
  calls w' = calls w ++ [GET (api_url (userId p)); PATCH (api_url (userId p)) payload] ∧
  user (state w') = Some u.
Proof.
  intros Hu Hne. cbv zeta. simpl. unfold rerender.
  destruct (decide (userId p = userId (props w))); [contradiction |].
  unfold updateUser_call. simpl. rewrite Hu. simpl.
  split; [now rewrite <- app_assoc | exact Hu].
Qed.

Lemma update_after_rebind_targets_new_id_witness :
  let w := run (mount (props_of "user-123")) [Settle 0 (ok_response mockUser)] in
  let w' := run w [Rerender (props_of "user-456"); CallUpdateUser jane_patch] in
  calls w' = calls w ++ [GET "/api/users/user-456";
                         PATCH "/api/users/user-456" jane_patch] ∧
  user (state w') = Some mockUser.
Proof.
  cbv zeta.
  apply (update_after_rebind_targets_new_id
           (run (mount (props_of "user-123")) [Settle 0 (ok_response mockUser)])
           (props_of "user-456") jane_patch mockUser).
  - reflexivity.
  - simpl. discriminate.
Defined.

Lemma settle_update_notified w rid cb res :
  pending w !! rid = Some (UpdateUserK cb) →
  notified (step w (Settle rid res)) =
    match outcome_of res, cb with
    | inr u, Some _ => notified w ++ [u]
    | _, _ => notified w
    end.
Proof.
  intros Hk. rewrite (settle_pending _ _ _ _ Hk).
  exact (updateUser_resume_notified cb res (drop_pending rid w)).
Qed.



(** X8: [onUpdate] is called inside the [try] block.  When the update
    itself succeeds and the callback throws, the state holds the returned
    user and has left edit mode, and the thrown value is stored as the
    error of the update: its message for an [Error], "Failed to update
    user" otherwise. *)
Theorem onUpdate_throw_is_reported_as_update_error
    (w : World) (rid : nat) (notify : User → option Thrown)
    (res : FetchResult) (u : User) (err : Thrown) :
  pending w !! rid = Some (UpdateUserK (Some notify)) →
  outcome_of res = inr u →
  notify u = Some err →
  let w' := step w (Settle rid res) in
  state w' = {| user := Some u; isLoading := false;
                error := Some (message_of "Failed to update user" err);
                isEditing := false |} ∧
  notified w' = notified w ++ [u].
Proof.
  intros Hk Hu Herr. cbv zeta. split.
  - rewrite (settle_pending _ _ _ _ Hk).
    change (resume (UpdateUserK (Some notify)) res)
      with (updateUser_resume (Some notify) res).
    rewrite updateUser_resume_state, Hu, Herr. reflexivity.
  - rewrite (settle_update_notified w rid (Some notify) res Hk). now rewrite Hu.
Qed.

Lemma onUpdate_throw_is_reported_as_update_error_witness :
  let p := {| userId := "user-123"; onUpdate := Some (λ _, Some ThrownValue) |} in
  let w := run (mount p) [Settle 0 (ok_response mockUser); CallSetEditing true;
                          CallUpdateUser jane_patch] in
  state (step w (Settle 1 (ok_response user2)))
    = {| user := Some user2; isLoading := false;
         error := Some "Failed to update user"; isEditing := false |}.
Proof.
  cbv zeta.
  exact (proj1 (onUpdate_throw_is_reported_as_update_error
                  (run (mount {| userId := "user-123";
                                 onUpdate := Some (λ _, Some ThrownValue) |})
                       [Settle 0 (ok_response mockUser); CallSetEditing true;
                        CallUpdateUser jane_patch])
                  1 (λ _, Some ThrownValue) (ok_response user2) user2 ThrownValue
                  eq_refl eq_refl eq_refl)).
Defined.

(** X9: [setEditing] touches nothing but the [isEditing] flag: entering
    edit mode (or leaving it) and going back restores the whole world,
    so no trace of the excursion is left in the state, the suspended
    calls or the remote calls. *)
Theorem setEditing_round_trip (w : World) (b b' : bool) :
  isEditing (state w) = b →
  run w [CallSetEditing b'; CallSetEditing b] = w.
Proof.
  intros <-. destruct w as [[su sl se sed] wp wpend wn wc wnot]. reflexivity.
Qed.

Lemma setEditing_round_trip_witness :
  let w := run (mount (props_of "user-123")) [Settle 0 (ok_response mockUser)] in
  run w [CallSetEditing true; CallSetEditing false] = w.
Proof.
  cbv zeta.
  apply (setEditing_round_trip
           (run (mount (props_of "user-123")) [Settle 0 (ok_response mockUser)])
           false true).
  reflexivity.
Defined.

(** * Properties of the component *)

Lemma ui_step_hook c e :
  hook (ui_step c e) =
    match hook_event c e with
    | Some ev => step (hook c) ev
    | None => hook c
    end.
Proof. destruct e; reflexivity. Qed.

Lemma ui_run_snoc c evs e : ui_run c (evs ++ [e]) = ui_step (ui_run c evs) e.
Proof. unfold ui_run. apply foldl_snoc. Qed.

Lemma ui_step_hook_reachable c e : reachable (hook c) → reachable (hook (ui_step c e)).
Proof.
  intros Hr. rewrite ui_step_hook.
  destruct (hook_event c e); [now apply reachable_step | exact Hr].
Qed.

Lemma ui_run_hook_reachable p ed evs :
  reachable (hook (ui_run (mountUserProfile p ed) evs)).
Proof.
  induction evs as [| e evs IH] using rev_ind.
  - apply reachable_mount.
  - rewrite ui_run_snoc. now apply ui_step_hook_reachable.
Qed.

Lemma reachable_settled_error w : reachable w → settled_error (state w).
Proof.
  revert w. apply reachable_induction.
  - intros p [m Hm]. discriminate Hm.
  - intros w e _. apply step_settled_error.
Qed.

Lemma truthy_Some o m : truthy o = Some m ↔ o = Some m ∧ m ≠ "".
Proof.
  destruct o as [[| c s] |]; simpl; split;
    try (intros H; discriminate H); try (intros [H _]; discriminate H).
  - intros [H Hne]. injection H as <-. now destruct Hne.
  - intros H. injection H as <-. split; [reflexivity | discriminate].
  - intros [H _]. exact H.
Qed.

(** ** What is displayed, and when *)

(** X10: the loading skeleton is displayed only while no user has been
    loaded yet.  Once a user is held, no sequence of events brings the
    skeleton back: during a refetch, and also after a change of [userId],
    the component displays something else (the user held so far or an
    error). *)
Theorem loading_view_only_before_first_user (c : Component) (evs : list UIEvent) :
  is_Some (user (state (hook c))) →
  UserProfile (ui_run c evs) ≠ LoadingView.
Proof.
  intros Hu.
  assert (Hheld : is_Some (user (state (hook (ui_run c evs))))).
  { induction evs as [| e evs IH] using rev_ind; [exact Hu |].
    rewrite ui_run_snoc, ui_step_hook.
    destruct (hook_event (ui_run c evs) e); [now apply step_user_mono | exact IH]. }
  destruct Hheld as [u Hheld]. unfold UserProfile. rewrite Hheld. simpl.
  rewrite andb_false_r.
  destruct (truthy (error (state (hook (ui_run c evs))))); discriminate.
Qed.

Lemma loading_view_only_before_first_user_witness :
  UserProfile (ui_run (ui_run (mountUserProfile (props_of "user-123") true)
                              [NetworkSettle 0 (ok_response mockUserWithBio)])
                      [PropsChange (props_of "user-456") true]) ≠ LoadingView.
Proof.
  apply (loading_view_only_before_first_user
           (ui_run (mountUserProfile (props_of "user-123") true)
                   [NetworkSettle 0 (ok_response mockUserWithBio)])).
  exists mockUserWithBio. reflexivity.
Defined.

(** X11: in every state a mounted component can reach, the error view is
    displayed exactly when the state stores a non-empty error, and it
    then shows that message, whether or not a user is held (the profile
    is hidden behind the error).  A stored error with an empty message
    is not displayed. *)
Theorem error_view_iff_nonempty_error
    (p : UseUserProfileOptions) (ed : bool) (evs : list UIEvent) (m : string) :
  let c := ui_run (mountUserProfile p ed) evs in
  UserProfile c = ErrorView m ↔ error (state (hook c)) = Some m ∧ m ≠ "".
Proof.
  cbv zeta. set (c := ui_run (mountUserProfile p ed) evs).
  pose proof (reachable_settled_error (hook c) (ui_run_hook_reachable p ed evs)) as Hinv.
  rewrite <- truthy_Some. unfold UserProfile. split.
  - destruct (isLoading (state (hook c)) && is_null (user (state (hook c))));
      [discriminate |].
    destruct (truthy (error (state (hook c)))) as [m' |].
    + intros H. injection H as <-. reflexivity.
    + destruct (user (state (hook c))); discriminate.
  - intros Ht. assert (Hl : isLoading (state (hook c)) = false).
    { apply Hinv. apply truthy_Some in Ht as [-> _]. eauto. }
    rewrite Hl, Ht. reflexivity.
Qed.

Lemma error_view_iff_nonempty_error_witness :
  UserProfile (ui_run (mountUserProfile (props_of "invalid-id") false)
                      [NetworkSettle 0 (failed_response "Not Found")])
    = ErrorView "Failed to fetch user: Not Found" ∧
  UserProfile (ui_run (mountUserProfile (props_of "invalid-id") false)
                      [NetworkSettle 0 (Rejected (ThrownError ""))])
    ≠ ErrorView "".
Proof.
  split.
  - apply (error_view_iff_nonempty_error (props_of "invalid-id") false
             [NetworkSettle 0 (failed_response "Not Found")]).
    split; [reflexivity | discriminate].
  - intros H.
    apply (error_view_iff_nonempty_error (props_of "invalid-id") false
             [NetworkSettle 0 (Rejected (ThrownError ""))]) in H.
    destruct H as [_ Hne]. now apply Hne.
Defined.

(** X12: dismissing the error of a failed fetch when no user is held
    leads to the empty view ("User not found"), not back to the loading
    skeleton, and issues no new fetch. *)
Theorem dismiss_after_failed_fetch_shows_empty
    (c : Component) (rid : nat) (res : FetchResult) (f : Failure) :
  pending (hook c) !! rid = Some FetchUserK →
  outcome_of res = inl f →
  user (state (hook c)) = None →
  let c' := ui_run c [NetworkSettle rid res; DismissClick] in
  UserProfile c' = EmptyView ∧ calls (hook c') = calls (hook c).
Proof.
  intros Hk Hf Hu. cbv zeta. simpl. unfold UserProfile. simpl.
  fold (step (hook c) (Settle rid res)).
  rewrite (settle_fetch_state (hook c) rid res Hk). unfold apply_fetch_result.
  rewrite Hf. simpl. rewrite Hu. split; [reflexivity |].
  apply (settle_calls (hook c) rid res).
Qed.

Lemma dismiss_after_failed_fetch_shows_empty_witness :
  UserProfile (ui_run (mountUserProfile (props_of "invalid-id") false)
                      [NetworkSettle 0 (failed_response "Not Found"); DismissClick])
    = EmptyView.
Proof.
  exact (proj1 (dismiss_after_failed_fetch_shows_empty
                  (mountUserProfile (props_of "invalid-id") false) 0
                  (failed_response "Not Found") (NotOk "Not Found")
                  eq_refl eq_refl eq_refl)).
Defined.

(** ** The edit form *)

Lemma ui_run_input_changes c (changes : list (Field * string)) :
  let c' := ui_run c (map (λ ch, InputChange ch.1 ch.2) changes) in
  hook c' = hook c ∧ editable c' = editable c ∧ editToggles c' = editToggles c ∧
  formData c' = foldl (λ d ch, set_field ch.1 ch.2 d) (formData c) changes.
Proof.
  revert c. induction changes as [| [name value] changes IH]; intros c.
  - repeat split.
  - cbv zeta. simpl.
    destruct (IH (handleInputChange name value c)) as (Hh & He & Ht & Hf).
    cbv zeta in Hh, He, Ht, Hf. rewrite Hh, He, Ht, Hf. repeat split.
Qed.

Lemma ui_run_app c evs evs' : ui_run c (evs ++ evs') = ui_run (ui_run c evs) evs'.
Proof. unfold ui_run. apply foldl_app. Qed.

Lemma UserProfile_not_editing c c' :
  hook c' = hook c → editable c' = editable c →
  isEditing (state (hook c)) = false →
  UserProfile c' = UserProfile c.
Proof.
  intros Hh He Hed. unfold UserProfile. rewrite Hh, He, Hed. reflexivity.
Qed.

Lemma set_field_keeps_fields name value d :
  (is_Some (payload_firstName d) → is_Some (payload_firstName (set_field name value d))) ∧
  (is_Some (payload_lastName d) → is_Some (payload_lastName (set_field name value d))) ∧
  (is_Some (payload_bio d) → is_Some (payload_bio (set_field name value d))) ∧
  payload_avatar (set_field name value d) = payload_avatar d.
Proof. destruct name; simpl; repeat split; eauto. Qed.

Lemma draft_fields (changes : list (Field * string)) d :
  let d' := foldl (λ d ch, set_field ch.1 ch.2 d) d changes in
  (is_Some (payload_firstName d) → is_Some (payload_firstName d')) ∧
  (is_Some (payload_lastName d) → is_Some (payload_lastName d')) ∧
  (is_Some (payload_bio d) → is_Some (payload_bio d')) ∧
  payload_avatar d' = payload_avatar d.
Proof.
  revert d. induction changes as [| [name value] changes IH]; intros d.
  - repeat split; eauto.
  - cbv zeta. simpl.
    destruct (IH (set_field name value d)) as (H1 & H2 & H3 & H4).
    destruct (set_field_keeps_fields name value d) as (G1 & G2 & G3 & G4).
    cbv zeta in H1, H2, H3, H4. rewrite H4, G4. repeat split; eauto.
Qed.

(** X13: clicking Edit while a user is held and the component is not in
    edit mode pre-fills the form with that user's first name, last name
    and bio (the empty string when there is none), whatever an earlier
    draft had left in it; it reports [true] to [onEditToggle], issues no
    remote call, and the profile then shows the form with those values. *)
Theorem edit_click_prefills_form (c : Component) (u : User) :
  user (state (hook c)) = Some u →
  isEditing (state (hook c)) = false →
  let c' := ui_step c EditClick in
  formData c' = form_of_user u ∧
  editToggles c' = editToggles c ++ [true] ∧
  calls (hook c') = calls (hook c) ∧
  (∀ av btn body, UserProfile c = ProfileView av btn body →
     UserProfile c' =
       ProfileView av (if editable c then Some "Cancel" else None)
         (FormBody
            {| firstName_value := firstName u; lastName_value := lastName u;
               bio_value := or_empty (bio u);
               save_disabled := isLoading (state (hook c));
               save_label := if isLoading (state (hook c))
                             then "Saving..." else "Save Changes" |})).
Proof.
  intros Hu Hed. cbv zeta. simpl. unfold handleEditClick. simpl.
  rewrite Hu, Hed. simpl. repeat split.
  intros av btn body. unfold UserProfile. simpl. rewrite Hu, Hed. simpl.
  rewrite andb_false_r.
  destruct (truthy (error (state (hook c)))); [discriminate |].
  intros H. injection H as <- _ _. reflexivity.
Qed.

Lemma edit_click_prefills_form_witness :
  let c := ui_run (mountUserProfile (props_of "user-123") true)
                  [NetworkSettle 0 (ok_response mockUserWithBio); EditClick;
                   InputChange FirstNameField "Jane"; EditClick] in
  formData c ≠ form_of_user mockUserWithBio ∧
  formData (ui_step c EditClick) = form_of_user mockUserWithBio ∧
  editToggles (ui_step c EditClick) = [true; false; true].
Proof.
  cbv zeta. split; [discriminate |].
  destruct (edit_click_prefills_form
              (ui_run (mountUserProfile (props_of "user-123") true)
                      [NetworkSettle 0 (ok_response mockUserWithBio); EditClick;
                       InputChange FirstNameField "Jane"; EditClick])
              mockUserWithBio eq_refl eq_refl) as (Hform & Htoggles & _).
  split; [exact Hform | exact Htoggles].
Defined.

(** X14: entering edit mode, typing into the form and cancelling leaves
    the hook exactly as it was and displays exactly what was displayed
    before: nothing of the abandoned draft reaches the state or the
    view.  [onEditToggle] has been told [true], then [false]. *)
Theorem cancel_edit_round_trip (c : Component) (changes : list (Field * string)) :
  isEditing (state (hook c)) = false →
  let c' := ui_run c (EditClick :: map (λ ch, InputChange ch.1 ch.2) changes
                                ++ [EditClick]) in
  hook c' = hook c ∧ UserProfile c' = UserProfile c ∧
  editToggles c' = editToggles c ++ [true; false].
Proof.
  intros Hed. cbv zeta.
  change (ui_run c (EditClick :: map (λ ch, InputChange ch.1 ch.2) changes ++ [EditClick]))
    with (ui_run (handleEditClick c)
                 (map (λ ch, InputChange ch.1 ch.2) changes ++ [EditClick])).
  rewrite ui_run_snoc.
  destruct (ui_run_input_changes (handleEditClick c) changes) as (Hh & He & Ht & _).
  cbv zeta in Hh, He, Ht.
  set (c2 := ui_run (handleEditClick c) (map (λ ch, InputChange ch.1 ch.2) changes)) in *.
  assert (Hhook : hook (ui_step c2 EditClick) = hook c).
  { simpl. rewrite Hh. simpl. rewrite Hed. simpl.
    destruct (hook c) as [[su sl se sed] wp wpend wn wc wnot]. simpl in Hed.
    subst sed. reflexivity. }
  split; [exact Hhook |]. split.
  - apply UserProfile_not_editing; [exact Hhook | | exact Hed].
    simpl. rewrite He. reflexivity.
  - simpl. rewrite Ht, Hh. simpl. rewrite Hed. simpl. now rewrite <- app_assoc.
Qed.

Lemma cancel_edit_round_trip_witness :
  let c := ui_run (mountUserProfile (props_of "user-123") true)
                  [NetworkSettle 0 (ok_response mockUserWithBio)] in
  UserProfile (ui_run c [EditClick; InputChange FirstNameField "Jane";
                         InputChange BioField ""; EditClick])
    = UserProfile c.
Proof.
  cbv zeta.
  destruct (cancel_edit_round_trip
              (ui_run (mountUserProfile (props_of "user-123") true)
                      [NetworkSettle 0 (ok_response mockUserWithBio)])
              [(FirstNameField, "Jane"); (BioField, "")] eq_refl) as (_ & Hview & _).
  exact Hview.
Defined.

(** ** What the component sends *)

(** X15: saving the form sends one PATCH, to the current [userId], whose
    body is the pre-filled form with the typed values written over it in
    the order typed.  The body always carries the three editable fields
    (also those left untouched) and never an avatar. *)
Theorem submit_sends_edited_form
    (c : Component) (u : User) (changes : list (Field * string)) :
  user (state (hook c)) = Some u →
  isEditing (state (hook c)) = false →
  let draft := foldl (λ d ch, set_field ch.1 ch.2 d) (form_of_user u) changes in
  let c' := ui_run c (EditClick :: map (λ ch, InputChange ch.1 ch.2) changes
                                ++ [FormSubmit]) in
  calls (hook c') = calls (hook c) ++ [PATCH (api_url (userId (props (hook c)))) draft] ∧
  is_Some (payload_firstName draft) ∧ is_Some (payload_lastName draft) ∧
  is_Some (payload_bio draft) ∧ payload_avatar draft = None.
Proof.
  intros Hu Hed. cbv zeta. split.
  - change (ui_run c (EditClick :: map (λ ch, InputChange ch.1 ch.2) changes ++ [FormSubmit]))
      with (ui_run (handleEditClick c)
                   (map (λ ch, InputChange ch.1 ch.2) changes ++ [FormSubmit])).
    rewrite ui_run_snoc.
    destruct (ui_run_input_changes (handleEditClick c) changes) as (Hh & _ & _ & Hf).
    cbv zeta in Hh, Hf. simpl. rewrite Hh, Hf. unfold updateUser_call. simpl.
    rewrite Hu, Hed. reflexivity.
  - destruct (draft_fields changes (form_of_user u)) as (H1 & H2 & H3 & H4).
    cbv zeta in H1, H2, H3, H4. rewrite H4. simpl in *. repeat split; eauto.
Qed.

Lemma submit_sends_edited_form_witness :
  let c := ui_run (mountUserProfile (props_of "user-123") true)
                  [NetworkSettle 0 (ok_response mockUserWithBio)] in
  calls (hook (ui_run c [EditClick; InputChange FirstNameField "Jane";
                         InputChange LastNameField "Smith"; FormSubmit]))
    = [GET "/api/users/user-123";
       PATCH "/api/users/user-123"
         {| payload_firstName := Some "Jane"; payload_lastName := Some "Smith";
            payload_bio := Some "Software developer"; payload_avatar := None |}].
Proof.
  cbv zeta.
  exact (proj1 (submit_sends_edited_form
                  (ui_run (mountUserProfile (props_of "user-123") true)
                          [NetworkSettle 0 (ok_response mockUserWithBio)])
                  mockUserWithBio
                  [(FirstNameField, "Jane"); (LastNameField, "Smith")]
                  eq_refl eq_refl)).
Defined.

(** X16: whatever the user does and whatever the network answers, no
    PATCH issued by a mounted component carries an avatar: the form has
    no avatar control and the pre-fill leaves the avatar out. *)
Theorem avatar_never_sent
    (p : UseUserProfileOptions) (ed : bool) (evs : list UIEvent) :
  no_avatar_sent (calls (hook (ui_run (mountUserProfile p ed) evs))).
Proof.
  enough (H : payload_avatar (formData (ui_run (mountUserProfile p ed) evs)) = None ∧
              no_avatar_sent (calls (hook (ui_run (mountUserProfile p ed) evs))))
    by exact (proj2 H).
  induction evs as [| e evs [IHform IHcalls]] using rev_ind.
  - split; [reflexivity |]. repeat constructor.
  - rewrite ui_run_snoc. set (c := ui_run (mountUserProfile p ed) evs) in *.
    unfold no_avatar_sent in *.
    destruct e as [| name value | | | p' ed' | rid res]; simpl.
    + split; [| exact IHcalls].
      destruct (user (state (hook c))); [| exact IHform].
      destruct (negb (isEditing (state (hook c)))); [reflexivity | exact IHform].
    + split; [| exact IHcalls].
      rewrite (proj2 (proj2 (proj2 (set_field_keeps_fields name value (formData c))))).
      exact IHform.
    + split; [exact IHform |]. unfold updateUser_call.
      destruct (user (state (hook c))); [| exact IHcalls]. simpl.
      apply Forall_app. split; [exact IHcalls |]. now constructor.
    + split; [exact IHform | exact IHcalls].
    + split; [exact IHform |]. unfold rerender.
      destruct (decide (userId p' = userId (props (hook c)))); [exact IHcalls |].
      simpl. apply Forall_app. split; [exact IHcalls |]. now constructor.
    + split; [exact IHform |].
      pose proof (settle_calls (hook c) rid res) as Hcalls. simpl in Hcalls.
      rewrite Hcalls. exact IHcalls.
Qed.

(** ** Failure and success of a save, as displayed *)

(** X17: when a save fails with a non-empty message while the form is
    open, the error view replaces the profile; after Dismiss the form is
    displayed again with the draft as it was submitted and the save
    button enabled, so the save can be retried. *)
Theorem failed_save_then_dismiss_shows_draft
    (c : Component) (rid : nat) (cb : option (User → option Thrown))
    (res : FetchResult) (f : Failure) (u : User) :
  pending (hook c) !! rid = Some (UpdateUserK cb) →
  outcome_of res = inl f →
  error_message "update" f ≠ "" →
  user (state (hook c)) = Some u →
  isEditing (state (hook c)) = true →
  UserProfile (ui_step c (NetworkSettle rid res))
    = ErrorView (error_message "update" f) ∧
  ∃ av, UserProfile (ui_run c [NetworkSettle rid res; DismissClick]) =
    ProfileView av (if editable c then Some "Cancel" else None)
      (FormBody
         {| firstName_value := or_empty (payload_firstName (formData c));
            lastName_value := or_empty (payload_lastName (formData c));
            bio_value := or_empty (payload_bio (formData c));
            save_disabled := false; save_label := "Save Changes" |}).
Proof.
  intros Hk Hf Hne Hu Hed.
  pose proof (settle_update_failure_state (hook c) rid cb res f Hk Hf) as Hstate.
  simpl in Hstate. split.
  - unfold UserProfile. simpl. rewrite Hstate. simpl.
    destruct (error_message "update" f) as [| ch s] eqn:Hm; [now destruct Hne |].
    reflexivity.
  - unfold UserProfile. simpl. rewrite Hstate. simpl. rewrite Hu, Hed.
    eexists. reflexivity.
Qed.

Lemma failed_save_then_dismiss_shows_draft_witness :
  let c := ui_run (mountUserProfile (props_of "user-123") true)
                  [NetworkSettle 0 (ok_response mockUserWithBio); EditClick;
                   InputChange FirstNameField "Jane"; FormSubmit] in
  UserProfile (ui_step c (NetworkSettle 1 (failed_response "Forbidden")))
    = ErrorView "Failed to update user: Forbidden".
Proof.
  cbv zeta.
  refine (proj1 (failed_save_then_dismiss_shows_draft
                   (ui_run (mountUserProfile (props_of "user-123") true)
                           [NetworkSettle 0 (ok_response mockUserWithBio); EditClick;
                            InputChange FirstNameField "Jane"; FormSubmit])
                   1 None (failed_response "Forbidden") (NotOk "Forbidden")
                   mockUserWithBio eq_refl eq_refl _ eq_refl eq_refl)).
  discriminate.
Defined.

(** X18: when a save succeeds (no error being stored and [onUpdate], if
    given, returning normally), the component leaves the form and
    displays the information of the user returned by the server: name,
    email, role, and the bio when it is not empty. *)
Theorem successful_save_shows_returned_user
    (c : Component) (rid : nat) (cb : option (User → option Thrown))
    (res : FetchResult) (u : User) :
  pending (hook c) !! rid = Some (UpdateUserK cb) →
  outcome_of res = inr u →
  error (state (hook c)) = None →
  (∀ notify, cb = Some notify → notify u = None) →
  ∃ av, UserProfile (ui_step c (NetworkSettle rid res)) =
    ProfileView av (if editable c then Some "Edit" else None)
      (InfoBody {| info_name := firstName u +:+ " " +:+ lastName u;
                   info_email := email u; info_role := role u;
                   info_bio := truthy (bio u) |}).
Proof.
  intros Hk Hu Herr Hcb.
  assert (Hstate : state (settle rid res (hook c))
                   = update_succeeded u (state (hook c))).
  { pose proof (settle_pending (hook c) rid _ res Hk) as Hs. simpl in Hs.
    rewrite Hs.
    change (resume (UpdateUserK cb) res) with (updateUser_resume cb res).
    rewrite updateUser_resume_state, Hu.
    destruct cb as [notify |]; [| reflexivity].
    now rewrite (Hcb notify eq_refl). }
  unfold UserProfile. simpl. rewrite Hstate. simpl. rewrite Herr. simpl.
  eexists. reflexivity.
Qed.

Lemma successful_save_shows_returned_user_witness :
  let c := ui_run (mountUserProfile (props_of "user-123") true)
                  [NetworkSettle 0 (ok_response mockUserWithBio); EditClick;
                   FormSubmit] in
  ∃ av, UserProfile (ui_step c (NetworkSettle 1 (ok_response user2)))
    = ProfileView av (Some "Edit")
        (InfoBody {| info_name := "Jane Doe"; info_email := "john.doe@example.com";
                     info_role := Role.user; info_bio := None |}).
Proof.
  cbv zeta.
  apply (successful_save_shows_returned_user
           (ui_run (mountUserProfile (props_of "user-123") true)
                   [NetworkSettle 0 (ok_response mockUserWithBio); EditClick;
                    FormSubmit])
           1 None (ok_response user2) user2 eq_refl eq_refl eq_refl).
  intros notify H. discriminate H.
Defined.

(** X19: the save button is disabled by [isLoading] alone, and
    [isLoading] is cleared by whichever call settles first.  With an
    update and a fetch both in flight and the form open, a fetch that
    succeeds shows the form with the save button enabled while the
    update is still in flight. *)
Theorem save_enabled_while_update_in_flight
    (c : Component) (rid1 rid2 : nat) (cb : option (User → option Thrown))
    (res : FetchResult) (u : User) :
  pending (hook c) !! rid1 = Some (UpdateUserK cb) →
  pending (hook c) !! rid2 = Some FetchUserK →
  isEditing (state (hook c)) = true →
  error (state (hook c)) = None →
  outcome_of res = inr u →
  let c' := ui_step c (NetworkSettle rid2 res) in
  pending (hook c') !! rid1 = Some (UpdateUserK cb) ∧
  ∃ av btn form,
    UserProfile c' = ProfileView av btn (FormBody form) ∧
    save_disabled form = false ∧ save_label form = "Save Changes".
Proof.
  intros Hupd Hfetch Hed Herr Hu. cbv zeta. split.
  - destruct (settle_pending_next (hook c) rid2 res) as [Hp _].
    simpl in *. rewrite Hp, lookup_delete_ne; [exact Hupd |].
    intros <-. rewrite Hupd in Hfetch. discriminate.
  - pose proof (settle_fetch_state (hook c) rid2 res Hfetch) as Hstate.
    unfold apply_fetch_result in Hstate. rewrite Hu in Hstate. simpl in Hstate.
    unfold UserProfile. simpl. rewrite Hstate. simpl. rewrite Herr, Hed. simpl.
    eexists _, _, _. split; [reflexivity |]. split; reflexivity.
Qed.

Lemma save_enabled_while_update_in_flight_witness :
  let c := ui_run (mountUserProfile (props_of "user-123") true)
                  [NetworkSettle 0 (ok_response mockUserWithBio);
                   PropsChange (props_of "user-456") true; EditClick; FormSubmit] in
  pending (hook (ui_step c (NetworkSettle 1 (ok_response user2)))) !! 2
    = Some (UpdateUserK None) ∧
  ∃ av btn form,
    UserProfile (ui_step c (NetworkSettle 1 (ok_response user2)))
      = ProfileView av btn (FormBody form) ∧
    save_disabled form = false ∧ save_label form = "Save Changes".
Proof.
  cbv zeta.
  exact (save_enabled_while_update_in_flight
           (ui_run (mountUserProfile (props_of "user-123") true)
                   [NetworkSettle 0 (ok_response mockUserWithBio);
                    PropsChange (props_of "user-456") true; EditClick; FormSubmit])
           2 1 None (ok_response user2) user2
           eq_refl eq_refl eq_refl eq_refl eq_refl).
Defined.
